(** * 3_more_routing.py: an in-memory item shop behind six HTTP handlers

    The program keeps one global dictionary [items] from integer ids to
    [Item] objects and exposes handlers that read or mutate it.  The
    handlers are embedded as computations in a small monad that threads the
    dictionary, may raise a Python exception, and records every
    [HTTPException] object the handler constructs (whether or not it is
    raised afterwards). *)

From Stdlib Require Import ZArith List String Bool Lia.
From Stdlib Require Import Floats.SpecFloat.
From Stdlib Require Import Numbers.DecimalString.
Import ListNotations.

Open Scope string_scope.
Open Scope Z_scope.

(** ** Data model *)

(** [class Category(Enum)] *)
Inductive Category : Type :=
| TOOLS
| CONSUMABLES.

Definition Category_value (c : Category) : string :=
  match c with
  | TOOLS => "tools"
  | CONSUMABLES => "consumables"
  end.

(** [a is b] on enum members: members are singletons, identity is equality
    of the member. *)
Definition Category_is (a b : Category) : bool :=
  match a, b with
  | TOOLS, TOOLS => true
  | CONSUMABLES, CONSUMABLES => true
  | _, _ => false
  end.

(** Python [float]: IEEE 754 binary64, as the specification floats of the
    standard library. *)
Definition float : Type := spec_float.

(** [a == b] on floats: IEEE equality (a NaN differs from everything,
    the two zeros are equal). *)
Definition float_eq (a b : float) : bool := SFeqb a b.

(** [str(n)] for an integer, as used by the f-strings of the handlers. *)
Definition str (n : Z) : string := NilZero.string_of_int (Z.to_int n).

(** [class Item(BaseModel)] *)
Module Item.
Record t : Type := mk {
  name : string;
  price : float;
  count : Z;
  id : Z;
  category : Category
}.

(** Attribute assignments [item.name = v], [item.price = v],
    [item.count = v]. *)
Definition set_name (v : string) (i : t) : t :=
  mk v (price i) (count i) (id i) (category i).
Definition set_price (v : float) (i : t) : t :=
  mk (name i) v (count i) (id i) (category i).
Definition set_count (v : Z) (i : t) : t :=
  mk (name i) (price i) v (id i) (category i).
End Item.

(** ** The dictionary

    A Python [dict] keeps its entries in insertion order, and
    [items.values()] iterates in that order; the dictionary is therefore an
    association list, with the operations the handlers use. *)

Definition dict : Type := list (Z * Item.t).

(** [d.get(k)] / the lookup behind [d[k]] and [k in d]. *)
Fixpoint dict_get (k : Z) (d : dict) : option Item.t :=
  match d with
  | [] => None
  | (k', v) :: r => if k =? k' then Some v else dict_get k r
  end.

(** [k in d] *)
Definition dict_contains (k : Z) (d : dict) : bool :=
  match dict_get k d with
  | Some _ => true
  | None => false
  end.

(** [d[k] = v]: an existing key keeps its position, a new key goes last. *)
Fixpoint dict_set (k : Z) (v : Item.t) (d : dict) : dict :=
  match d with
  | [] => [(k, v)]
  | (k', v') :: r =>
      if k =? k' then (k, v) :: r else (k', v') :: dict_set k v r
  end.

(** The store left by [d.pop(k)]: the entry of [k] is removed. *)
Fixpoint dict_remove (k : Z) (d : dict) : dict :=
  match d with
  | [] => []
  | (k', v) :: r => if k =? k' then r else (k', v) :: dict_remove k r
  end.

(** [d.keys()] and [d.values()] *)
Definition dict_keys (d : dict) : list Z := map fst d.
Definition dict_values (d : dict) : list Item.t := map snd d.

(** What the mapping type guarantees: keys are unique. *)
Definition dict_wf (d : dict) : Prop := NoDup (dict_keys d).

(** ** Exceptions and the handler monad *)

(** [HTTPException(status_code=..., detail=...)] *)
Record http_exception : Type := HTTPException {
  status_code : Z;
  detail : string
}.

Inductive exn : Type :=
| HTTPError (e : http_exception)
| KeyError (key : Z).

Inductive result (A : Type) : Type :=
| Return (a : A)
| Raise (e : exn).
Arguments Return {A} a.
Arguments Raise {A} e.

(** A handler runs on the current [items]; it yields its result, the
    [items] it leaves behind, and the [HTTPException] objects it
    constructed, in order. *)
Definition M (A : Type) : Type := dict -> result A * dict * list http_exception.

Definition outcome {A} (r : result A * dict * list http_exception) : result A :=
  fst (fst r).
Definition store {A} (r : result A * dict * list http_exception) : dict :=
  snd (fst r).
Definition constructed {A} (r : result A * dict * list http_exception)
  : list http_exception := snd r.

Definition ret {A} (a : A) : M A := fun d => (Return a, d, []).

Definition bind {A B} (m : M A) (k : A -> M B) : M B :=
  fun d =>
    match m d with
    | (Return a, d1, l1) =>
        match k a d1 with
        | (r, d2, l2) => (r, d2, (l1 ++ l2)%list)
        end
    | (Raise e, d1, l1) => (Raise e, d1, l1)
    end.

Declare Scope handler_scope.
Delimit Scope handler_scope with handler.
Notation "x <- m ;; k" := (bind m (fun x => k))
  (at level 100, m at next level, right associativity) : handler_scope.
Notation "m ;; k" := (bind m (fun _ => k))
  (at level 100, right associativity) : handler_scope.
Open Scope handler_scope.

(** [raise e] *)
Definition raise {A} (e : exn) : M A := fun d => (Raise e, d, []).

(** Evaluating the expression [HTTPException(...)]: the object is built and
    handed to the context, nothing is raised. *)
Definition new (e : http_exception) : M http_exception :=
  fun d => (Return e, d, [e]).

(** An expression statement: the value is dropped. *)
Definition discard {A} (m : M A) : M unit := (_ <- m ;; ret tt).

(** [if b: body] with no [else]. *)
Definition when (b : bool) (body : M unit) : M unit :=
  if b then body else ret tt.

(** The global [items]. *)
Definition read_items : M dict := fun d => (Return d, d, []).

(** [k in items] *)
Definition contains (k : Z) : M bool :=
  fun d => (Return (dict_contains k d), d, []).

(** [items[k]]: a missing key raises [KeyError]. *)
Definition getitem (k : Z) : M Item.t :=
  fun d =>
    match dict_get k d with
    | Some v => (Return v, d, [])
    | None => (Raise (KeyError k), d, [])
    end.

(** [items[k] = v] *)
Definition setitem (k : Z) (v : Item.t) : M unit :=
  fun d => (Return tt, dict_set k v d, []).

(** [items.pop(k)]: a missing key raises [KeyError]. *)
Definition pop (k : Z) : M Item.t :=
  fun d =>
    match dict_get k d with
    | Some v => (Return v, dict_remove k d, [])
    | None => (Raise (KeyError k), d, [])
    end.

(** [item.attr = v] where the local name [item] is bound to the object
    stored under key [k]: the assignment mutates that stored object, so the
    dictionary sees it, and the local name keeps denoting the same
    (now modified) object. *)
Definition setattr (k : Z) (assign : Item.t -> Item.t) (item : Item.t)
  : M Item.t :=
  fun d => (Return (assign item), dict_set k (assign item) d, []).

(** ** The program *)

(** The module-level [items] dictionary.  The prices are the binary64
    values of the literals 9.99, 5.99 and 1.99. *)
Definition Hammer : Item.t :=
  Item.mk "Hammer" (S754_finite false 5623870034678907 (-49)) 20 0 TOOLS.
Definition Pliers : Item.t :=
  Item.mk "Pliers" (S754_finite false 6744140441987318 (-50)) 20 1 TOOLS.
Definition Nails : Item.t :=
  Item.mk "Nails" (S754_finite false 8962163258467287 (-52)) 100 2 CONSUMABLES.

Definition items : dict := [(0, Hammer); (1, Pliers); (2, Nails)].

(** [GET /] *)
Definition index : M (string * dict) :=
  d <- read_items ;;
  ret ("items", d).

(** [GET /items/{item_id}] *)
Definition query_item_by_id (item_id : Z) : M Item.t :=
  absent <- (b <- contains item_id ;; ret (negb b)) ;;
  when absent
    (discard (new (HTTPException 404
       ("Item with " ++ str item_id ++ " does not found.")))) ;;
  getitem item_id.

(** The user's query arguments, echoed in the response. *)
Module Selection.
Record t : Type := mk {
  name : option string;
  price : option float;
  count : option Z;
  category : option Category
}.
End Selection.

Record query_response : Type := QueryResponse {
  query : Selection.t;
  selection : list Item.t
}.

(** [x is None or test(x)] *)
Definition is_None_or {A} (x : option A) (test : A -> bool) : bool :=
  match x with
  | None => true
  | Some v => test v
  end.

(** The inner function [check_item] of [query_item_by_parameters]; the four
    query arguments come from the enclosing scope.  [all] of a tuple. *)
Definition check_item (name : option string) (price : option float)
    (count : option Z) (category : option Category) (item : Item.t) : bool :=
  forallb (fun b : bool => b)
    [ is_None_or name (fun name => String.eqb (Item.name item) name);
      is_None_or price (fun price => float_eq (Item.price item) price);
      is_None_or count (fun count => negb (Item.count item =? count));
      is_None_or category
        (fun category => Category_is (Item.category item) category) ].

(** [GET /items/] *)
Definition query_item_by_parameters (name : option string)
    (price : option float) (count : option Z) (category : option Category)
  : M query_response :=
  d <- read_items ;;
  let selection := filter (check_item name price count category) (dict_values d) in
  ret (QueryResponse (Selection.mk name price count category) selection).

(** [POST /] *)
Definition add_item (item : Item.t) : M (string * Item.t) :=
  present <- contains (Item.id item) ;;
  when present
    (discard (new (HTTPException 400
       ("Item with " ++ str (Item.id item) ++ " already exist")))) ;;
  setitem (Item.id item) item ;;
  ret ("added", item).

(** [x is None] *)
Definition is_None {A} (x : option A) : bool :=
  match x with
  | None => true
  | Some _ => false
  end.

(** [PUT /update/{item_id}] *)
Definition update (item_id : Z) (name : option string) (price : option float)
    (count : option Z) : M (string * Item.t) :=
  absent <- (b <- contains item_id ;; ret (negb b)) ;;
  when absent
    (discard (new (HTTPException 404
       ("Item with " ++ str item_id ++ " does not exist.")))) ;;
  when (forallb (fun b : bool => b) [is_None name; is_None price; is_None count])
    (e <- new (HTTPException 400 "No parameters provide for update.") ;;
     raise (HTTPError e)) ;;
  item <- getitem item_id ;;
  item <- match name with
          | Some name => setattr item_id (Item.set_name name) item
          | None => ret item
          end ;;
  item <- match price with
          | Some price => setattr item_id (Item.set_price price) item
          | None => ret item
          end ;;
  item <- match count with
          | Some count => setattr item_id (Item.set_count count) item
          | None => ret item
          end ;;
  ret ("updated", item).

(** [DELETE /delete/{item_id}] *)
Definition delete_item (item_id : Z) : M (string * Item.t) :=
  absent <- (b <- contains item_id ;; ret (negb b)) ;;
  when absent
    (e <- new (HTTPException 404
       ("Item with " ++ str item_id ++ " does not exist.")) ;;
     raise (HTTPError e)) ;;
  item <- pop item_id ;;
  ret ("delete", item).

(** The claimed filter of [query_item_by_parameters], written from the
    specification's words: every supplied argument is compared for equality
    with the item's field.  It is compared below with [check_item], which is
    the source's. *)
Definition check_item_spec (name : option string) (price : option float)
    (count : option Z) (category : option Category) (item : Item.t) : bool :=
  forallb (fun b : bool => b)
    [ is_None_or name (fun name => String.eqb (Item.name item) name);
      is_None_or price (fun price => float_eq (Item.price item) price);
      is_None_or count (fun count => Item.count item =? count);
      is_None_or category
        (fun category => Category_is (Item.category item) category) ].

(** ** Requests

    The six routes of the application, and the [items] a request leaves
    behind (a raised exception ends the request, the process and its
    dictionary live on). *)
Inductive request : Type :=
| GET_index
| GET_item (item_id : Z)
| GET_items (name : option string) (price : option float)
    (count : option Z) (category : option Category)
| POST_item (item : Item.t)
| PUT_update (item_id : Z) (name : option string) (price : option float)
    (count : option Z)
| DELETE_item (item_id : Z).

Definition serve (r : request) (d : dict) : dict :=
  match r with
  | GET_index => store (index d)
  | GET_item item_id => store (query_item_by_id item_id d)
  | GET_items name price count category =>
      store (query_item_by_parameters name price count category d)
  | POST_item item => store (add_item item d)
  | PUT_update item_id name price count =>
      store (update item_id name price count d)
  | DELETE_item item_id => store (delete_item item_id d)
  end.

Definition serve_all (rs : list request) (d : dict) : dict :=
  fold_left (fun d r => serve r d) rs d.

(** The invariant of the store: every item is filed under its own id. *)
Definition items_inv (d : dict) : Prop :=
  forall k item, dict_get k d = Some item -> Item.id item = k.

(** The constraints FastAPI checks on the arguments of [update] before the
    handler runs ([Path(ge=0)], [Query(min_length=1, max_length=8)],
    [Query(gt=0.0)], [Query(ge=0)]); a request that fails them never reaches
    the handler.  Lengths are counted on ASCII names. *)
Definition update_arguments_valid (item_id : Z) (name : option string)
    (price : option float) (count : option Z) : bool :=
  (0 <=? item_id)
  && is_None_or name
       (fun name => (1 <=? String.length name)%nat
                    && (String.length name <=? 8)%nat)
  && is_None_or price (fun price => SFltb (S754_zero false) price)
  && is_None_or count (fun count => 0 <=? count).

Ltac run_handler :=
  cbv beta iota zeta delta
    [index query_item_by_id query_item_by_parameters add_item update
     delete_item bind when discard ret new raise read_items contains
     getitem setitem pop setattr outcome store constructed dict_contains
     negb fst snd].

(** Rewrite with what is known about the store and keep running. *)
Ltac run_with H := run_handler; repeat (rewrite H; run_handler).

(** The field left by [if x is not None: item.field = x]. *)
Definition assigned {A} (x : option A) (old : A) : A :=
  match x with
  | Some v => v
  | None => old
  end.

(** ** Sample requests *)

(** An item posted over an id that is already taken (price 12.5). *)
Definition Saw : Item.t :=
  Item.mk "Saw" (S754_finite false 7036874417766400 (-49)) 3 1 TOOLS.

(** An item posted under a fresh id (price 79.92). *)
Definition Drill : Item.t :=
  Item.mk "Drill" (S754_finite false 5623870034678907 (-46)) 4 7 TOOLS.

(** ** Facts about the dictionary *)

Section DictFacts.

Implicit Types (k : Z) (v : Item.t) (d : dict).

Lemma dict_contains_true k d :
  dict_contains k d = true <-> exists v, dict_get k d = Some v.
Proof.
  unfold dict_contains. destruct (dict_get k d) as [v|].
  - split; [eauto | reflexivity].
  - split; [discriminate | intros [v H]; discriminate].
Qed.

Lemma dict_contains_false k d :
  dict_contains k d = false <-> dict_get k d = None.
Proof.
  unfold dict_contains. destruct (dict_get k d); split; congruence.
Qed.

Lemma dict_get_In k v d : dict_get k d = Some v -> In (k, v) d.
Proof.
  induction d as [|[k' v'] r IH]; simpl; [discriminate|].
  destruct (Z.eqb_spec k k') as [->|Hne].
  - intros [= ->]. now left.
  - intros H. right. auto.
Qed.

Lemma dict_get_None k d : dict_get k d = None <-> ~ In k (dict_keys d).
Proof.
  induction d as [|[k' v'] r IH]; simpl.
  - tauto.
  - destruct (Z.eqb_spec k k') as [->|Hne].
    + split; [discriminate | intros H; exfalso; apply H; now left].
    + rewrite IH. split; intros H; [intros [E|E]; [congruence | auto] | tauto].
Qed.

Lemma dict_get_set_eq k v d : dict_get k (dict_set k v d) = Some v.
Proof.
  induction d as [|[k' v'] r IH]; simpl.
  - now rewrite Z.eqb_refl.
  - destruct (Z.eqb_spec k k') as [->|Hne]; simpl.
    + now rewrite Z.eqb_refl.
    + destruct (Z.eqb_spec k k'); [contradiction | exact IH].
Qed.

Lemma dict_get_set_ne k k' v d :
  k' <> k -> dict_get k' (dict_set k v d) = dict_get k' d.
Proof.
  intros Hne. induction d as [|[k0 v0] r IH]; simpl.
  - destruct (Z.eqb_spec k' k); [contradiction | reflexivity].
  - destruct (Z.eqb_spec k k0) as [->|Hk]; simpl.
    + destruct (Z.eqb_spec k' k0); [contradiction | reflexivity].
    + destruct (k' =? k0); [reflexivity | exact IH].
Qed.

Lemma dict_set_set k v v' d :
  dict_set k v (dict_set k v' d) = dict_set k v d.
Proof.
  induction d as [|[k0 v0] r IH]; simpl.
  - now rewrite Z.eqb_refl.
  - destruct (Z.eqb_spec k k0) as [->|Hk]; simpl.
    + now rewrite Z.eqb_refl.
    + destruct (Z.eqb_spec k k0); [contradiction | now rewrite IH].
Qed.

(** Assigning to a key that is present adds no entry and moves none. *)
Lemma dict_keys_set_present k v d :
  dict_contains k d = true -> dict_keys (dict_set k v d) = dict_keys d.
Proof.
  unfold dict_contains.
  induction d as [|[k0 v0] r IH]; simpl; [discriminate|].
  destruct (Z.eqb_spec k k0) as [->|Hk]; simpl; [reflexivity|].
  intros H. now rewrite IH.
Qed.

(** Assigning to a new key appends the entry. *)
Lemma dict_set_absent k v d :
  dict_contains k d = false -> dict_set k v d = (d ++ [(k, v)])%list.
Proof.
  unfold dict_contains.
  induction d as [|[k0 v0] r IH]; simpl; [reflexivity|].
  destruct (Z.eqb_spec k k0) as [->|Hk]; simpl; [discriminate|].
  intros H. now rewrite IH.
Qed.

Lemma dict_get_remove_ne k k' d :
  k' <> k -> dict_get k' (dict_remove k d) = dict_get k' d.
Proof.
  intros Hne. induction d as [|[k0 v0] r IH]; simpl; [reflexivity|].
  destruct (Z.eqb_spec k k0) as [->|Hk]; simpl.
  - destruct (Z.eqb_spec k' k0); [contradiction | reflexivity].
  - destruct (k' =? k0); [reflexivity | exact IH].
Qed.

Lemma dict_keys_remove_incl k k' d :
  In k' (dict_keys (dict_remove k d)) -> In k' (dict_keys d).
Proof.
  induction d as [|[k0 v0] r IH]; simpl; [tauto|].
  destruct (k =? k0); simpl; [tauto|]. intros [H|H]; auto.
Qed.

Lemma dict_get_remove_eq k d :
  dict_wf d -> dict_get k (dict_remove k d) = None.
Proof.
  unfold dict_wf.
  induction d as [|[k0 v0] r IH]; simpl; [reflexivity|].
  intros Hnd. inversion Hnd as [|? ? Hnotin Hnd']; subst.
  destruct (Z.eqb_spec k k0) as [->|Hk]; simpl.
  - now apply dict_get_None.
  - destruct (Z.eqb_spec k k0); [contradiction | auto].
Qed.

Lemma dict_wf_set k v d : dict_wf d -> dict_wf (dict_set k v d).
Proof.
  intros Hwf. destruct (dict_contains k d) eqn:E.
  - unfold dict_wf. now rewrite dict_keys_set_present.
  - rewrite dict_set_absent by exact E.
    unfold dict_wf, dict_keys. rewrite map_app. simpl.
    apply dict_contains_false, dict_get_None in E.
    apply NoDup_app; [exact Hwf | repeat constructor; simpl; tauto |].
    intros x Hx [<-|[]]. exact (E Hx).
Qed.

Lemma dict_wf_remove k d : dict_wf d -> dict_wf (dict_remove k d).
Proof.
  unfold dict_wf.
  induction d as [|[k0 v0] r IH]; simpl; [auto|].
  intros Hnd. inversion Hnd as [|? ? Hnotin Hnd']; subst.
  destruct (k =? k0); simpl; [exact Hnd'|].
  constructor; [|auto].
  intros H. apply Hnotin. exact (dict_keys_remove_incl _ _ _ H).
Qed.

End DictFacts.

(** ** Running the handlers *)

Section HandlerFacts.

Implicit Types (k item_id : Z) (d : dict).

Lemma query_item_by_id_present item_id d item :
  dict_get item_id d = Some item ->
  query_item_by_id item_id d = (Return item, d, []).
Proof.
  intros H. now run_with H.
Qed.

Lemma query_item_by_id_absent item_id d :
  dict_get item_id d = None ->
  query_item_by_id item_id d =
    (Raise (KeyError item_id), d,
     [HTTPException 404 ("Item with " ++ str item_id ++ " does not found.")]).
Proof.
  intros H. now run_with H.
Qed.

Lemma add_item_run item d :
  add_item item d =
    (Return ("added", item), dict_set (Item.id item) item d,
     if dict_contains (Item.id item) d
     then [HTTPException 400
             ("Item with " ++ str (Item.id item) ++ " already exist")]
     else []).
Proof.
  run_handler. now destruct (dict_get (Item.id item) d).
Qed.

Lemma update_no_arguments item_id d :
  update item_id None None None d =
    (Raise (HTTPError (HTTPException 400 "No parameters provide for update.")),
     d,
     ((if dict_contains item_id d then []
       else [HTTPException 404
               ("Item with " ++ str item_id ++ " does not exist.")])
      ++ [HTTPException 400 "No parameters provide for update."])%list).
Proof.
  run_handler. now destruct (dict_get item_id d).
Qed.

Lemma update_absent item_id name price count d :
  dict_get item_id d = None ->
  forallb (fun b : bool => b) [is_None name; is_None price; is_None count]
    = false ->
  update item_id name price count d =
    (Raise (KeyError item_id), d,
     [HTTPException 404 ("Item with " ++ str item_id ++ " does not exist.")]).
Proof.
  intros H Hsome. run_with H. rewrite Hsome. now run_with H.
Qed.

Lemma update_present item_id name price count d old :
  dict_get item_id d = Some old ->
  forallb (fun b : bool => b) [is_None name; is_None price; is_None count]
    = false ->
  update item_id name price count d =
    (Return ("updated",
             Item.mk (assigned name (Item.name old))
               (assigned price (Item.price old))
               (assigned count (Item.count old))
               (Item.id old) (Item.category old)),
     dict_set item_id
       (Item.mk (assigned name (Item.name old))
          (assigned price (Item.price old))
          (assigned count (Item.count old))
          (Item.id old) (Item.category old)) d,
     []).
Proof.
  intros H Hsome. run_with H. rewrite Hsome. run_with H.
  destruct old as [n p c i g].
  destruct name, price, count; try discriminate Hsome;
    cbn; rewrite ?dict_set_set; reflexivity.
Qed.

Lemma delete_item_absent item_id d :
  dict_get item_id d = None ->
  delete_item item_id d =
    (Raise (HTTPError
              (HTTPException 404
                 ("Item with " ++ str item_id ++ " does not exist."))),
     d,
     [HTTPException 404 ("Item with " ++ str item_id ++ " does not exist.")]).
Proof.
  intros H. now run_with H.
Qed.

Lemma delete_item_present item_id d item :
  dict_get item_id d = Some item ->
  delete_item item_id d =
    (Return ("delete", item), dict_remove item_id d, []).
Proof.
  intros H. now run_with H.
Qed.

Lemma query_item_by_parameters_run name price count category d :
  query_item_by_parameters name price count category d =
    (Return (QueryResponse (Selection.mk name price count category)
               (filter (check_item name price count category)
                  (dict_values d))),
     d, []).
Proof. reflexivity. Qed.

End HandlerFacts.

(** ** The filter of [query_item_by_parameters] *)

Section Filter.

Variables (name : option string) (price : option float)
          (count : option Z) (category : option Category).

Lemma Category_is_eq (a b : Category) : Category_is a b = true <-> a = b.
Proof. destruct a, b; simpl; split; congruence. Qed.

Lemma forallb_id4 (a b c e : bool) :
  forallb (fun x : bool => x) [a; b; c; e] = true <->
  a = true /\ b = true /\ c = true /\ e = true.
Proof. destruct a, b, c, e; simpl; intuition congruence. Qed.

(** What the source's predicate accepts: the supplied name, price and
    category are equal to the item's, the supplied count is different
    from the item's. *)
Lemma check_item_true (item : Item.t) :
  check_item name price count category item = true <->
  (forall v, name = Some v -> Item.name item = v) /\
  (forall v, price = Some v -> float_eq (Item.price item) v = true) /\
  (forall v, count = Some v -> Item.count item <> v) /\
  (forall v, category = Some v -> Item.category item = v).
Proof.
  unfold check_item. rewrite forallb_id4.
  destruct name as [n|], price as [p|], count as [c|], category as [g|];
    cbn [is_None_or];
    rewrite ?String.eqb_eq, ?negb_true_iff, ?Z.eqb_neq, ?Category_is_eq;
    (split;
     [ intros (Hn & Hp & Hc & Hg); repeat split; intros v [= <-]; assumption
     | intros (Hn & Hp & Hc & Hg); repeat split; auto ]).
Qed.

(** What the claimed predicate accepts: equality on all four. *)
Lemma check_item_spec_true (item : Item.t) :
  check_item_spec name price count category item = true <->
  (forall v, name = Some v -> Item.name item = v) /\
  (forall v, price = Some v -> float_eq (Item.price item) v = true) /\
  (forall v, count = Some v -> Item.count item = v) /\
  (forall v, category = Some v -> Item.category item = v).
Proof.
  unfold check_item_spec. rewrite forallb_id4.
  destruct name as [n|], price as [p|], count as [c|], category as [g|];
    cbn [is_None_or];
    rewrite ?String.eqb_eq, ?Z.eqb_eq, ?Category_is_eq;
    (split;
     [ intros (Hn & Hp & Hc & Hg); repeat split; intros v [= <-]; assumption
     | intros (Hn & Hp & Hc & Hg); repeat split; auto ]).
Qed.

(** The selection is the linear scan of the stored items with the
    source's predicate. *)
Lemma selection_In (d : dict) (item : Item.t) :
  In item (filter (check_item name price count category) (dict_values d)) <->
  In item (dict_values d) /\
  check_item name price count category item = true.
Proof. apply filter_In. Qed.

End Filter.

(** Without a [count] argument the source's filter is the claimed one. *)
Lemma check_item_no_count name price category item :
  check_item name price None category item =
  check_item_spec name price None category item.
Proof. reflexivity. Qed.

(** ** The invariant *)

Section Invariant.

Implicit Types (k item_id : Z) (d : dict).

Lemma items_inv_set k v d :
  items_inv d -> Item.id v = k -> items_inv (dict_set k v d).
Proof.
  intros Hinv Hid k' it. destruct (Z.eq_dec k' k) as [->|Hne].
  - rewrite dict_get_set_eq. now intros [= <-].
  - rewrite dict_get_set_ne by exact Hne. apply Hinv.
Qed.

Lemma items_inv_remove k d :
  dict_wf d -> items_inv d -> items_inv (dict_remove k d).
Proof.
  intros Hwf Hinv k' it. destruct (Z.eq_dec k' k) as [->|Hne].
  - now rewrite dict_get_remove_eq.
  - rewrite dict_get_remove_ne by exact Hne. apply Hinv.
Qed.

(** The store left by [update]: untouched, or the object under [item_id]
    replaced by one with the same id. *)
Lemma update_store item_id name price count d :
  store (update item_id name price count d) = d \/
  exists old v,
    dict_get item_id d = Some old /\ Item.id v = Item.id old /\
    store (update item_id name price count d) = dict_set item_id v d.
Proof.
  destruct (forallb (fun b : bool => b)
              [is_None name; is_None price; is_None count]) eqn:Hall.
  - left. destruct name, price, count; try discriminate Hall.
    now rewrite update_no_arguments.
  - destruct (dict_get item_id d) as [old|] eqn:Hget.
    + right. rewrite (update_present _ _ _ _ _ _ Hget Hall).
      exists old. eexists. split; [reflexivity|].
      split; [|reflexivity]. reflexivity.
    + left. now rewrite (update_absent _ _ _ _ _ Hget Hall).
Qed.

Lemma delete_item_store item_id d :
  store (delete_item item_id d) = d \/
  store (delete_item item_id d) = dict_remove item_id d.
Proof.
  destruct (dict_get item_id d) as [item|] eqn:Hget.
  - right. now rewrite (delete_item_present _ _ _ Hget).
  - left. now rewrite (delete_item_absent _ _ Hget).
Qed.

Lemma query_item_by_id_store item_id d :
  store (query_item_by_id item_id d) = d.
Proof.
  destruct (dict_get item_id d) as [item|] eqn:Hget.
  - now rewrite (query_item_by_id_present _ _ _ Hget).
  - now rewrite (query_item_by_id_absent _ _ Hget).
Qed.

Lemma serve_wf r d : dict_wf d -> dict_wf (serve r d).
Proof.
  intros Hwf. destruct r; simpl.
  - exact Hwf.
  - now rewrite query_item_by_id_store.
  - exact Hwf.
  - rewrite add_item_run. now apply dict_wf_set.
  - destruct (update_store item_id name price count d)
      as [->|(old & v & _ & _ & ->)]; [exact Hwf | now apply dict_wf_set].
  - destruct (delete_item_store item_id d) as [->| ->];
      [exact Hwf | now apply dict_wf_remove].
Qed.

Lemma serve_inv r d : dict_wf d -> items_inv d -> items_inv (serve r d).
Proof.
  intros Hwf Hinv. destruct r; simpl.
  - exact Hinv.
  - now rewrite query_item_by_id_store.
  - exact Hinv.
  - rewrite add_item_run. now apply items_inv_set.
  - destruct (update_store item_id name price count d)
      as [->|(old & v & Hget & Hid & ->)]; [exact Hinv|].
    apply items_inv_set; [exact Hinv|]. rewrite Hid. now apply Hinv.
  - destruct (delete_item_store item_id d) as [->| ->];
      [exact Hinv | now apply items_inv_remove].
Qed.

Lemma serve_all_preserves rs d :
  dict_wf d -> items_inv d ->
  dict_wf (serve_all rs d) /\ items_inv (serve_all rs d).
Proof.
  revert d. induction rs as [|r rs IH]; intros d Hwf Hinv; simpl.
  - now split.
  - apply IH; [now apply serve_wf | now apply serve_inv].
Qed.

Lemma items_wf : dict_wf items.
Proof.
  unfold dict_wf. simpl.
  repeat constructor; simpl; intuition discriminate.
Qed.

Lemma items_inv_initial : items_inv items.
Proof.
  intros k it. unfold items. simpl.
  destruct (Z.eqb_spec k 0) as [->|]; [now intros [= <-]|].
  destruct (Z.eqb_spec k 1) as [->|]; [now intros [= <-]|].
  destruct (Z.eqb_spec k 2) as [->|]; [now intros [= <-]|].
  discriminate.
Qed.

End Invariant.

(** ** The claims *)

(** C1 (the source departs from the claim).  The claim: the selection holds
    exactly the stored items whose fields equal every supplied argument.
    The source compares the supplied count with [!=]: asking the initial
    store for [count=20] selects the one item whose count is not 20
    ([Nails], count 100), where the claimed equality filter selects
    [Hammer] and [Pliers], the two items whose count is 20. *)
Theorem query_item_by_parameters_count_selects_unequal :
  query_item_by_parameters None None (Some 20) None items =
    (Return (QueryResponse (Selection.mk None None (Some 20) None) [Nails]),
     items, []) /\
  filter (check_item_spec None None (Some 20) None) (dict_values items) =
    [Hammer; Pliers].
Proof. split; reflexivity. Qed.

(** C2.  Posting an item whose id is already a key raises nothing: the 400
    [HTTPException] is constructed and dropped, the handler returns
    [{"added": item}], the entry under that id now is the posted item, no
    other entry changes and no key is added or moved. *)
Theorem add_item_existing_id_overwrites (item : Item.t) (d : dict) :
  dict_contains (Item.id item) d = true ->
  outcome (add_item item d) = Return ("added", item) /\
  constructed (add_item item d) =
    [HTTPException 400
       ("Item with " ++ str (Item.id item) ++ " already exist")] /\
  dict_get (Item.id item) (store (add_item item d)) = Some item /\
  (forall k, k <> Item.id item ->
             dict_get k (store (add_item item d)) = dict_get k d) /\
  dict_keys (store (add_item item d)) = dict_keys d.
Proof.
  intros Hin. rewrite add_item_run, Hin. unfold outcome, constructed, store.
  cbn [fst snd]. repeat split.
  - apply dict_get_set_eq.
  - intros k Hk. now apply dict_get_set_ne.
  - now apply dict_keys_set_present.
Qed.

Lemma add_item_existing_id_overwrites_witness :
  dict_contains (Item.id Saw) items = true /\
  outcome (add_item Saw items) = Return ("added", Saw) /\
  constructed (add_item Saw items) =
    [HTTPException 400 "Item with 1 already exist"] /\
  dict_get 1 (store (add_item Saw items)) = Some Saw /\
  (forall k, k <> 1 -> dict_get k (store (add_item Saw items)) =
                       dict_get k items) /\
  dict_keys (store (add_item Saw items)) = [0; 1; 2].
Proof.
  split; [reflexivity|].
  apply (add_item_existing_id_overwrites Saw items). reflexivity.
Defined.

(** C3 (the source departs from the claim).  The claim: updating an id that
    is not stored, with some field supplied, fails with a 404.  The source
    constructs the 404 [HTTPException] without raising it and goes on to
    [items[item_id]], which raises [KeyError]: no [HTTPException] is
    raised.  The request below passes the argument checks of the route and
    names an id that is not stored. *)
Theorem update_missing_id_raises_KeyError :
  update_arguments_valid 5 (Some "Saw") None None = true /\
  dict_contains 5 items = false /\
  update 5 (Some "Saw") None None items =
    (Raise (KeyError 5), items,
     [HTTPException 404 "Item with 5 does not exist."]).
Proof. repeat split. Qed.

(** C4.  With [name], [price] and [count] all [None], [update] raises the
    400 [HTTPException] for every [item_id], stored or not, and leaves
    [items] as it was. *)
Theorem update_without_arguments_raises_400 (item_id : Z) (d : dict) :
  outcome (update item_id None None None d) =
    Raise (HTTPError (HTTPException 400 "No parameters provide for update.")) /\
  store (update item_id None None None d) = d.
Proof. rewrite update_no_arguments. split; reflexivity. Qed.

(** C5.  For a stored [item_id] and at least one supplied field, [update]
    returns [{"updated": item}] where [item] is the stored one with exactly
    the supplied fields among name, price and count overwritten (id and
    category kept); the store holds that item under [item_id], every other
    entry is unchanged, and no key is added or moved. *)
Theorem update_overwrites_supplied_fields
    (item_id : Z) (name : option string) (price : option float)
    (count : option Z) (d : dict) (old : Item.t) :
  dict_get item_id d = Some old ->
  name <> None \/ price <> None \/ count <> None ->
  let item :=
    Item.mk (assigned name (Item.name old)) (assigned price (Item.price old))
      (assigned count (Item.count old)) (Item.id old) (Item.category old) in
  outcome (update item_id name price count d) = Return ("updated", item) /\
  dict_get item_id (store (update item_id name price count d)) = Some item /\
  (forall k, k <> item_id ->
     dict_get k (store (update item_id name price count d)) = dict_get k d) /\
  dict_keys (store (update item_id name price count d)) = dict_keys d.
Proof.
  intros Hget Hsome item.
  assert (Hall : forallb (fun b : bool => b)
                   [is_None name; is_None price; is_None count] = false).
  { destruct name, price, count; try reflexivity.
    destruct Hsome as [H|[H|H]]; now elim H. }
  rewrite (update_present _ _ _ _ _ _ Hget Hall).
  unfold outcome, store. cbn [fst snd]. fold item. repeat split.
  - apply dict_get_set_eq.
  - intros k Hk. now apply dict_get_set_ne.
  - apply dict_keys_set_present. unfold dict_contains. now rewrite Hget.
Qed.

Lemma update_overwrites_supplied_fields_witness :
  dict_get 1 items = Some Pliers /\
  outcome (update 1 (Some "Saw") None (Some 3) items) =
    Return ("updated", Item.mk "Saw" (Item.price Pliers) 3 1 TOOLS) /\
  dict_get 1 (store (update 1 (Some "Saw") None (Some 3) items)) =
    Some (Item.mk "Saw" (Item.price Pliers) 3 1 TOOLS) /\
  (forall k, k <> 1 ->
     dict_get k (store (update 1 (Some "Saw") None (Some 3) items)) =
     dict_get k items) /\
  dict_keys (store (update 1 (Some "Saw") None (Some 3) items)) = [0; 1; 2].
Proof.
  split; [reflexivity|].
  apply (update_overwrites_supplied_fields 1 (Some "Saw") None (Some 3)
           items Pliers); [reflexivity | left; discriminate].
Defined.

(** C6.  On a dictionary (keys unique), [delete_item] of an id that is not
    a key raises the 404 [HTTPException] and leaves [items] as it was; of
    an id that is a key it returns [{"delete": item}] with the item that
    was stored there, that id is no longer a key, and every other entry is
    unchanged. *)
Theorem delete_item_removes_or_404 (item_id : Z) (d : dict) :
  dict_wf d ->
  (dict_contains item_id d = false ->
     outcome (delete_item item_id d) =
       Raise (HTTPError
                (HTTPException 404
                   ("Item with " ++ str item_id ++ " does not exist."))) /\
     store (delete_item item_id d) = d) /\
  (forall item, dict_get item_id d = Some item ->
     outcome (delete_item item_id d) = Return ("delete", item) /\
     dict_contains item_id (store (delete_item item_id d)) = false /\
     (forall k, k <> item_id ->
        dict_get k (store (delete_item item_id d)) = dict_get k d)).
Proof.
  intros Hwf. split.
  - intros Habs. apply dict_contains_false in Habs.
    rewrite (delete_item_absent _ _ Habs). split; reflexivity.
  - intros item Hget. rewrite (delete_item_present _ _ _ Hget).
    unfold outcome, store. cbn [fst snd]. repeat split.
    + apply dict_contains_false. now apply dict_get_remove_eq.
    + intros k Hk. now apply dict_get_remove_ne.
Qed.

Lemma delete_item_removes_or_404_witness :
  (dict_contains 9 items = false /\
   outcome (delete_item 9 items) =
     Raise (HTTPError (HTTPException 404 "Item with 9 does not exist.")) /\
   store (delete_item 9 items) = items) /\
  (dict_get 1 items = Some Pliers /\
   outcome (delete_item 1 items) = Return ("delete", Pliers) /\
   dict_contains 1 (store (delete_item 1 items)) = false /\
   (forall k, k <> 1 ->
      dict_get k (store (delete_item 1 items)) = dict_get k items)).
Proof.
  split.
  - split; [reflexivity|].
    apply (proj1 (delete_item_removes_or_404 9 items items_wf)). reflexivity.
  - split; [reflexivity|].
    apply (proj2 (delete_item_removes_or_404 1 items items_wf) Pliers).
    reflexivity.
Defined.

(** C7.  Posting an item whose id is not yet a key constructs no exception,
    returns [{"added": item}], appends the entry [item.id -> item] to the
    store and changes no other entry; [query_item_by_id] of that id on the
    resulting store returns the posted item. *)
Theorem add_item_fresh_id_inserts (item : Item.t) (d : dict) :
  dict_contains (Item.id item) d = false ->
  outcome (add_item item d) = Return ("added", item) /\
  constructed (add_item item d) = [] /\
  store (add_item item d) = (d ++ [(Item.id item, item)])%list /\
  dict_get (Item.id item) (store (add_item item d)) = Some item /\
  (forall k, k <> Item.id item ->
             dict_get k (store (add_item item d)) = dict_get k d) /\
  query_item_by_id (Item.id item) (store (add_item item d)) =
    (Return item, store (add_item item d), []).
Proof.
  intros Hfresh. rewrite add_item_run, Hfresh.
  unfold outcome, constructed, store. cbn [fst snd]. repeat split.
  - now apply dict_set_absent.
  - apply dict_get_set_eq.
  - intros k Hk. now apply dict_get_set_ne.
  - apply query_item_by_id_present, dict_get_set_eq.
Qed.

Lemma add_item_fresh_id_inserts_witness :
  dict_contains (Item.id Drill) items = false /\
  outcome (add_item Drill items) = Return ("added", Drill) /\
  constructed (add_item Drill items) = [] /\
  store (add_item Drill items) =
    [(0, Hammer); (1, Pliers); (2, Nails); (7, Drill)] /\
  dict_get 7 (store (add_item Drill items)) = Some Drill /\
  (forall k, k <> 7 ->
             dict_get k (store (add_item Drill items)) = dict_get k items) /\
  query_item_by_id 7 (store (add_item Drill items)) =
    (Return Drill, store (add_item Drill items), []).
Proof.
  split; [reflexivity|].
  apply (add_item_fresh_id_inserts Drill items). reflexivity.
Defined.

(** C8.  Every item is filed under its own id ([items[k].id == k]): this
    holds of the initial [items], each of the six handlers preserves it on
    a dictionary, and so it holds after any sequence of requests. *)
Theorem items_inv_invariant :
  items_inv items /\
  (forall r d, dict_wf d -> items_inv d -> items_inv (serve r d)) /\
  (forall rs, items_inv (serve_all rs items)).
Proof.
  split; [exact items_inv_initial|]. split.
  - intros r d. apply serve_inv.
  - intros rs. apply serve_all_preserves; [exact items_wf | exact items_inv_initial].
Qed.

Lemma items_inv_invariant_witness :
  items_inv (serve (POST_item Saw) items) /\
  items_inv
    (serve_all [DELETE_item 0; POST_item Drill;
                PUT_update 1 (Some "Saw") None None; GET_item 4] items).
Proof.
  destruct items_inv_invariant as (Hinit & Hstep & Hall). split.
  - apply Hstep; [exact items_wf | exact Hinit].
  - apply Hall.
Defined.

(** C9.  For an [item_id] that is not a key, [query_item_by_id] constructs
    the 404 [HTTPException] without raising it and then fails in
    [items[item_id]] with [KeyError]: it returns no item and raises no
    [HTTPException]; [items] is untouched. *)
Theorem query_item_by_id_missing_raises_KeyError (item_id : Z) (d : dict) :
  dict_contains item_id d = false ->
  outcome (query_item_by_id item_id d) = Raise (KeyError item_id) /\
  constructed (query_item_by_id item_id d) =
    [HTTPException 404 ("Item with " ++ str item_id ++ " does not found.")] /\
  store (query_item_by_id item_id d) = d /\
  (forall item, outcome (query_item_by_id item_id d) <> Return item) /\
  (forall e, outcome (query_item_by_id item_id d) <> Raise (HTTPError e)).
Proof.
  intros Habs. apply dict_contains_false in Habs.
  rewrite (query_item_by_id_absent _ _ Habs).
  unfold outcome, constructed, store. cbn [fst snd].
  repeat split; intros ?; discriminate.
Qed.

Lemma query_item_by_id_missing_raises_KeyError_witness :
  dict_contains 7 items = false /\
  outcome (query_item_by_id 7 items) = Raise (KeyError 7) /\
  constructed (query_item_by_id 7 items) =
    [HTTPException 404 "Item with 7 does not found."] /\
  store (query_item_by_id 7 items) = items /\
  (forall item, outcome (query_item_by_id 7 items) <> Return item) /\
  (forall e, outcome (query_item_by_id 7 items) <> Raise (HTTPError e)).
Proof.
  split; [reflexivity|].
  apply (query_item_by_id_missing_raises_KeyError 7 items). reflexivity.
Defined.

(** C10.  [query_item_by_parameters] leaves [items] as it was, constructs
    no exception, and returns a response whose [query] field holds exactly
    the four arguments it was called with. *)
Theorem query_item_by_parameters_pure_and_echoes
    (name : option string) (price : option float) (count : option Z)
    (category : option Category) (d : dict) :
  store (query_item_by_parameters name price count category d) = d /\
  constructed (query_item_by_parameters name price count category d) = [] /\
  exists response,
    outcome (query_item_by_parameters name price count category d) =
      Return response /\
    query response = Selection.mk name price count category /\
    Selection.name (query response) = name /\
    Selection.price (query response) = price /\
    Selection.count (query response) = count /\
    Selection.category (query response) = category.
Proof.
  rewrite query_item_by_parameters_run.
  split; [reflexivity|]. split; [reflexivity|].
  eexists. split; [reflexivity|]. repeat split.
Qed.

(** ** Further facts used below *)

Section MoreFacts.

Implicit Types (k item_id : Z) (d : dict).

Lemma filter_all {A} (f : A -> bool) (l : list A) :
  (forall x, f x = true) -> filter f l = l.
Proof.
  intros Hf. induction l as [|x l IH]; simpl; [reflexivity|].
  now rewrite Hf, IH.
Qed.

Lemma filter_none {A} (f : A -> bool) (l : list A) :
  (forall x, f x = false) -> filter f l = [].
Proof.
  intros Hf. induction l as [|x l IH]; simpl; [reflexivity|].
  now rewrite Hf.
Qed.

(** IEEE equality with a NaN on either side is false. *)
Lemma float_eq_nan_r (p : float) : float_eq p S754_nan = false.
Proof. now destruct p as [s|s| |s m e]. Qed.

Lemma float_eq_nan_l (p : float) : float_eq S754_nan p = false.
Proof. now destruct p as [s|s| |s m e]. Qed.

Lemma dict_remove_app_absent k v d :
  dict_get k d = None -> dict_remove k (d ++ [(k, v)])%list = d.
Proof.
  induction d as [|[k0 v0] r IH]; simpl.
  - now rewrite Z.eqb_refl.
  - destruct (k =? k0); [discriminate|]. intros H. now rewrite IH.
Qed.

(** In a dictionary an entry is what the lookup of its key finds. *)
Lemma dict_get_of_In k v d : dict_wf d -> In (k, v) d -> dict_get k d = Some v.
Proof.
  unfold dict_wf. induction d as [|[k0 v0] r IH]; simpl; [tauto|].
  intros Hnd [Heq|Hin]; inversion Hnd as [|? ? Hnotin Hnd']; subst.
  - injection Heq as -> ->. now rewrite Z.eqb_refl.
  - destruct (Z.eqb_spec k k0) as [->|Hne]; [|auto].
    exfalso. apply Hnotin. change k0 with (fst (k0, v)). now apply in_map.
Qed.

Lemma dict_values_In v d :
  In v (dict_values d) -> exists k, In (k, v) d.
Proof.
  unfold dict_values. intros H. apply in_map_iff in H as ([k v'] & Hv & Hin).
  simpl in Hv. subst v'. now exists k.
Qed.

Lemma query_item_by_id_outcome item_id d item :
  outcome (query_item_by_id item_id d) = Return item <->
  dict_get item_id d = Some item.
Proof.
  destruct (dict_get item_id d) as [it|] eqn:Hget.
  - rewrite (query_item_by_id_present _ _ _ Hget). unfold outcome. simpl.
    split; congruence.
  - rewrite (query_item_by_id_absent _ _ Hget). unfold outcome. simpl.
    split; discriminate.
Qed.

Lemma some_supplied (name : option string) (price : option float)
    (count : option Z) :
  name <> None \/ price <> None \/ count <> None ->
  forallb (fun b : bool => b) [is_None name; is_None price; is_None count]
    = false.
Proof.
  intros Hsome. destruct name, price, count; try reflexivity.
  destruct Hsome as [H|[H|H]]; now elim H.
Qed.

Lemma assigned_twice {A} (x : option A) (old : A) :
  assigned x (assigned x old) = assigned x old.
Proof. now destruct x. Qed.

End MoreFacts.

(** ** Further properties of the handlers *)

(** X1.  [query_item_by_id] returns an item exactly when the id is a key,
    and then it is the stored item; in every case it leaves [items] as it
    was. *)
Theorem query_item_by_id_returns_exactly_stored
    (item_id : Z) (d : dict) (item : Item.t) :
  (outcome (query_item_by_id item_id d) = Return item <->
   dict_get item_id d = Some item) /\
  store (query_item_by_id item_id d) = d.
Proof.
  split; [apply query_item_by_id_outcome | apply query_item_by_id_store].
Qed.

(** X2.  After any sequence of requests on the initial [items], an item
    returned by [query_item_by_id] carries the id that was asked for. *)
Theorem query_item_by_id_returns_requested_id
    (rs : list request) (item_id : Z) (item : Item.t) :
  outcome (query_item_by_id item_id (serve_all rs items)) = Return item ->
  Item.id item = item_id.
Proof.
  intros Hout. apply query_item_by_id_outcome in Hout.
  destruct (serve_all_preserves rs items items_wf items_inv_initial)
    as [_ Hinv].
  exact (Hinv _ _ Hout).
Qed.

Lemma query_item_by_id_returns_requested_id_witness :
  outcome (query_item_by_id 7 (serve_all [POST_item Drill] items)) =
    Return Drill /\
  Item.id Drill = 7.
Proof.
  split; [reflexivity|].
  apply (query_item_by_id_returns_requested_id [POST_item Drill] 7 Drill).
  reflexivity.
Defined.

(** X3.  Whatever the store holds, fresh id or taken, an item that was just
    posted is what [query_item_by_id] of its id returns, with no exception
    constructed. *)
Theorem add_item_then_query_item_by_id (item : Item.t) (d : dict) :
  query_item_by_id (Item.id item) (store (add_item item d)) =
    (Return item, store (add_item item d), []).
Proof.
  rewrite add_item_run. unfold store. cbn [fst snd].
  apply query_item_by_id_present, dict_get_set_eq.
Qed.

(** X4.  Posting an item under a fresh id and then deleting that id gives
    the item back and restores the store, order included. *)
Theorem add_item_then_delete_item_restores (item : Item.t) (d : dict) :
  dict_contains (Item.id item) d = false ->
  delete_item (Item.id item) (store (add_item item d)) =
    (Return ("delete", item), d, []).
Proof.
  intros Hfresh. rewrite add_item_run. unfold store. cbn [fst snd].
  rewrite (delete_item_present _ _ item) by apply dict_get_set_eq.
  rewrite dict_set_absent by exact Hfresh.
  rewrite dict_remove_app_absent; [reflexivity|].
  now apply dict_contains_false.
Qed.

Lemma add_item_then_delete_item_restores_witness :
  dict_contains (Item.id Drill) items = false /\
  delete_item 7 (store (add_item Drill items)) =
    (Return ("delete", Drill), items, []).
Proof.
  split; [reflexivity|].
  apply (add_item_then_delete_item_restores Drill items). reflexivity.
Defined.

(** X5.  Posting the same item a second time changes nothing more: the
    second post returns [{"added": item}] again, leaves the store of the
    first post, and constructs (without raising) the 400 exception. *)
Theorem add_item_twice (item : Item.t) (d : dict) :
  add_item item (store (add_item item d)) =
    (Return ("added", item), store (add_item item d),
     [HTTPException 400
        ("Item with " ++ str (Item.id item) ++ " already exist")]).
Proof.
  rewrite !add_item_run. unfold store. cbn [fst snd].
  rewrite dict_set_set. unfold dict_contains. now rewrite dict_get_set_eq.
Qed.

(** X6.  Repeating an [update] that succeeded is a no-op: the second call
    returns the same item and leaves the store of the first. *)
Theorem update_twice
    (item_id : Z) (name : option string) (price : option float)
    (count : option Z) (d : dict) (old : Item.t) :
  dict_get item_id d = Some old ->
  name <> None \/ price <> None \/ count <> None ->
  update item_id name price count (store (update item_id name price count d)) =
    (outcome (update item_id name price count d),
     store (update item_id name price count d), []).
Proof.
  intros Hget Hsome. apply some_supplied in Hsome.
  rewrite (update_present _ _ _ _ _ _ Hget Hsome).
  unfold outcome, store. cbn [fst snd].
  rewrite (update_present _ _ _ _ _ _ (dict_get_set_eq _ _ _) Hsome).
  cbn [Item.name Item.price Item.count Item.id Item.category].
  now rewrite !assigned_twice, dict_set_set.
Qed.

Lemma update_twice_witness :
  dict_get 1 items = Some Pliers /\
  update 1 (Some "Saw") None (Some 3)
    (store (update 1 (Some "Saw") None (Some 3) items)) =
    (outcome (update 1 (Some "Saw") None (Some 3) items),
     store (update 1 (Some "Saw") None (Some 3) items), []).
Proof.
  split; [reflexivity|].
  apply (update_twice 1 (Some "Saw") None (Some 3) items Pliers);
    [reflexivity | left; discriminate].
Defined.

(** X7.  Whatever its arguments and whatever it returns or raises, [update]
    neither adds, removes nor reorders keys. *)
Theorem update_keeps_keys
    (item_id : Z) (name : option string) (price : option float)
    (count : option Z) (d : dict) :
  dict_keys (store (update item_id name price count d)) = dict_keys d.
Proof.
  destruct (update_store item_id name price count d)
    as [->|(old & v & Hget & _ & ->)]; [reflexivity|].
  apply dict_keys_set_present. unfold dict_contains. now rewrite Hget.
Qed.

(** X8.  For every id that is not a key, [update] with at least one field
    supplied raises [KeyError] for that id, having constructed (and not
    raised) the 404 exception; the store is untouched. *)
Theorem update_missing_id_KeyError
    (item_id : Z) (name : option string) (price : option float)
    (count : option Z) (d : dict) :
  dict_contains item_id d = false ->
  name <> None \/ price <> None \/ count <> None ->
  update item_id name price count d =
    (Raise (KeyError item_id), d,
     [HTTPException 404 ("Item with " ++ str item_id ++ " does not exist.")]).
Proof.
  intros Habs Hsome. apply update_absent.
  - now apply dict_contains_false.
  - now apply some_supplied.
Qed.

Lemma update_missing_id_KeyError_witness :
  dict_contains 9 items = false /\
  update 9 None None (Some 4) items =
    (Raise (KeyError 9), items,
     [HTTPException 404 "Item with 9 does not exist."]).
Proof.
  split; [reflexivity|].
  apply (update_missing_id_KeyError 9 None None (Some 4) items);
    [reflexivity | right; right; discriminate].
Defined.

(** X9.  What [query_item_by_parameters] selects, as the source computes
    it: a stored item is selected exactly when its name equals the supplied
    name, its price equals (as floats) the supplied price, its count
    differs from the supplied count (the source's [!=]), and its category
    is the supplied category; an argument that is [None] imposes nothing. *)
Theorem query_item_by_parameters_selects
    (name : option string) (price : option float) (count : option Z)
    (category : option Category) (d : dict) (item : Item.t) :
  exists response,
    outcome (query_item_by_parameters name price count category d) =
      Return response /\
    (In item (selection response) <->
     In item (dict_values d) /\
     (forall v, name = Some v -> Item.name item = v) /\
     (forall v, price = Some v -> float_eq (Item.price item) v = true) /\
     (forall v, count = Some v -> Item.count item <> v) /\
     (forall v, category = Some v -> Item.category item = v)).
Proof.
  rewrite query_item_by_parameters_run. eexists. split; [reflexivity|].
  cbn [selection]. rewrite selection_In, check_item_true. reflexivity.
Qed.

(** X10.  With no argument supplied, the selection is every stored item, in
    the order of the store. *)
Theorem query_item_by_parameters_no_arguments (d : dict) :
  query_item_by_parameters None None None None d =
    (Return (QueryResponse (Selection.mk None None None None)
               (dict_values d)),
     d, []).
Proof.
  rewrite query_item_by_parameters_run.
  rewrite filter_all; [reflexivity|]. intros item. reflexivity.
Qed.

(** X11.  A NaN price selects nothing, whatever is stored and whatever the
    other arguments are: no float equals NaN. *)
Theorem query_item_by_parameters_nan_price
    (name : option string) (count : option Z) (category : option Category)
    (d : dict) :
  query_item_by_parameters name (Some S754_nan) count category d =
    (Return (QueryResponse (Selection.mk name (Some S754_nan) count category)
               []),
     d, []).
Proof.
  rewrite query_item_by_parameters_run.
  rewrite filter_none; [reflexivity|]. intros item.
  unfold check_item. cbn [forallb is_None_or].
  rewrite float_eq_nan_r. now rewrite andb_false_r.
Qed.

(** X12.  After any sequence of requests on the initial [items], every item
    in a selection can be fetched by its own id: [query_item_by_id] of
    [item.id] returns that very item. *)
Theorem selected_items_are_fetchable
    (rs : list request) (name : option string) (price : option float)
    (count : option Z) (category : option Category)
    (response : query_response) (item : Item.t) :
  outcome (query_item_by_parameters name price count category
             (serve_all rs items)) = Return response ->
  In item (selection response) ->
  query_item_by_id (Item.id item) (serve_all rs items) =
    (Return item, serve_all rs items, []).
Proof.
  rewrite query_item_by_parameters_run. unfold outcome. cbn [fst].
  intros [= <-]. cbn [selection]. intros Hin.
  apply filter_In in Hin as [Hin _].
  destruct (serve_all_preserves rs items items_wf items_inv_initial)
    as [Hwf Hinv].
  apply dict_values_In in Hin as [k Hin].
  apply (dict_get_of_In _ _ _ Hwf) in Hin.
  rewrite (Hinv _ _ Hin). now apply query_item_by_id_present.
Qed.

Lemma selected_items_are_fetchable_witness :
  outcome (query_item_by_parameters None None (Some 100) (Some TOOLS)
             (serve_all [DELETE_item 0; POST_item Drill] items)) =
    Return (QueryResponse (Selection.mk None None (Some 100) (Some TOOLS))
              [Pliers; Drill]) /\
  In Drill [Pliers; Drill] /\
  query_item_by_id (Item.id Drill)
    (serve_all [DELETE_item 0; POST_item Drill] items) =
    (Return Drill, serve_all [DELETE_item 0; POST_item Drill] items, []).
Proof.
  split; [reflexivity|]. split; [right; left; reflexivity|].
  apply (selected_items_are_fetchable [DELETE_item 0; POST_item Drill]
           None None (Some 100) (Some TOOLS)
           (QueryResponse (Selection.mk None None (Some 100) (Some TOOLS))
              [Pliers; Drill]) Drill);
    [reflexivity | right; left; reflexivity].
Defined.

(** X13.  On a dictionary, deleting a stored id a second time raises the
    404 exception and leaves the store of the first deletion. *)
Theorem delete_item_twice (item_id : Z) (d : dict) (item : Item.t) :
  dict_wf d ->
  dict_get item_id d = Some item ->
  delete_item item_id (store (delete_item item_id d)) =
    (Raise (HTTPError
              (HTTPException 404
                 ("Item with " ++ str item_id ++ " does not exist."))),
     store (delete_item item_id d),
     [HTTPException 404 ("Item with " ++ str item_id ++ " does not exist.")]).
Proof.
  intros Hwf Hget. rewrite (delete_item_present _ _ _ Hget).
  unfold store. cbn [fst snd].
  apply delete_item_absent. now apply dict_get_remove_eq.
Qed.

Lemma delete_item_twice_witness :
  dict_get 1 items = Some Pliers /\
  delete_item 1 (store (delete_item 1 items)) =
    (Raise (HTTPError (HTTPException 404 "Item with 1 does not exist.")),
     [(0, Hammer); (2, Nails)],
     [HTTPException 404 "Item with 1 does not exist."]).
Proof.
  split; [reflexivity|].
  apply (delete_item_twice 1 items Pliers items_wf). reflexivity.
Defined.

(** X14.  No request creates a key other than the id of a posted item:
    after [POST /] the keys are among the old keys and [item.id], after
    any other request they are among the old keys. *)
Theorem serve_adds_only_posted_id (r : request) (d : dict) :
  incl (dict_keys (serve r d))
       match r with
       | POST_item item => Item.id item :: dict_keys d
       | _ => dict_keys d
       end.
Proof.
  destruct r; simpl.
  - apply incl_refl.
  - rewrite query_item_by_id_store. apply incl_refl.
  - apply incl_refl.
  - rewrite add_item_run. unfold store. cbn [fst snd].
    destruct (dict_contains (Item.id item) d) eqn:E.
    + rewrite dict_keys_set_present by exact E. apply incl_tl, incl_refl.
    + rewrite dict_set_absent by exact E. unfold dict_keys.
      rewrite map_app. intros k Hk. apply in_app_or in Hk as [Hk|[<-|[]]].
      * now right.
      * now left.
  - destruct (update_store item_id name price count d)
      as [->|(old & v & Hget & _ & ->)]; [apply incl_refl|].
    rewrite dict_keys_set_present; [apply incl_refl|].
    unfold dict_contains. now rewrite Hget.
  - destruct (delete_item_store item_id d) as [->| ->]; [apply incl_refl|].
    intros k. apply dict_keys_remove_incl.
Qed.

(** X15.  The two handlers that both mutate and raise are atomic in their
    errors: when [update] or [delete_item] raises, whatever the exception,
    [items] is as it was. *)
Theorem raise_leaves_items_unchanged
    (item_id : Z) (name : option string) (price : option float)
    (count : option Z) (d : dict) (e : exn) :
  (outcome (update item_id name price count d) = Raise e ->
   store (update item_id name price count d) = d) /\
  (outcome (delete_item item_id d) = Raise e ->
   store (delete_item item_id d) = d).
Proof.
  split.
  - destruct (forallb (fun b : bool => b)
                [is_None name; is_None price; is_None count]) eqn:Hall.
    + destruct name, price, count; try discriminate Hall.
      now rewrite update_no_arguments.
    + destruct (dict_get item_id d) as [old|] eqn:Hget.
      * rewrite (update_present _ _ _ _ _ _ Hget Hall). discriminate.
      * now rewrite (update_absent _ _ _ _ _ Hget Hall).
  - destruct (dict_get item_id d) as [item|] eqn:Hget.
    + rewrite (delete_item_present _ _ _ Hget). discriminate.
    + now rewrite (delete_item_absent _ _ Hget).
Qed.

Lemma raise_leaves_items_unchanged_witness :
  (outcome (update 9 (Some "Saw") None None items) = Raise (KeyError 9) /\
   store (update 9 (Some "Saw") None None items) = items) /\
  (outcome (delete_item 9 items) =
     Raise (HTTPError (HTTPException 404 "Item with 9 does not exist.")) /\
   store (delete_item 9 items) = items).
Proof.
  split.
  - split; [reflexivity|].
    apply (proj1 (raise_leaves_items_unchanged 9 (Some "Saw") None None items
                    (KeyError 9))).
    reflexivity.
  - split; [reflexivity|].
    apply (proj2 (raise_leaves_items_unchanged 9 None None None items
                    (HTTPError
                       (HTTPException 404 "Item with 9 does not exist.")))).
    reflexivity.
Defined.

(** X16.  After any sequence of requests on the initial [items], [index]
    returns the whole store under ["items"], untouched, and that listing
    names every id once. *)
Theorem index_lists_each_id_once (rs : list request) :
  index (serve_all rs items) =
    (Return ("items", serve_all rs items), serve_all rs items, []) /\
  NoDup (dict_keys (serve_all rs items)).
Proof.
  split; [reflexivity|].
  exact (proj1 (serve_all_preserves rs items items_wf items_inv_initial)).
Qed.

(** X17.  After an [update] that succeeded, [query_item_by_id] of the same
    id returns the item that [update] returned. *)
Theorem update_then_query_item_by_id
    (item_id : Z) (name : option string) (price : option float)
    (count : option Z) (d : dict) (old : Item.t) :
  dict_get item_id d = Some old ->
  name <> None \/ price <> None \/ count <> None ->
  exists item,
    outcome (update item_id name price count d) = Return ("updated", item) /\
    query_item_by_id item_id (store (update item_id name price count d)) =
      (Return item, store (update item_id name price count d), []).
Proof.
  intros Hget Hsome. apply some_supplied in Hsome.
  rewrite (update_present _ _ _ _ _ _ Hget Hsome).
  unfold outcome, store. cbn [fst snd]. eexists. split; [reflexivity|].
  apply query_item_by_id_present, dict_get_set_eq.
Qed.

Lemma update_then_query_item_by_id_witness :
  dict_get 2 items = Some Nails /\
  exists item,
    outcome (update 2 None None (Some 99) items) = Return ("updated", item) /\
    query_item_by_id 2 (store (update 2 None None (Some 99) items)) =
      (Return item, store (update 2 None None (Some 99) items), []).
Proof.
  split; [reflexivity|].
  apply (update_then_query_item_by_id 2 None None (Some 99) items Nails);
    [reflexivity | right; right; discriminate].
Defined.

(** X18.  Deleting an item stored under its own id and posting it back
    restores every lookup (the entry moves to the end of the store). *)
Theorem delete_item_then_add_item_restores_lookups
    (d : dict) (item : Item.t) (k : Z) :
  dict_get (Item.id item) d = Some item ->
  dict_get k (store (add_item item (store (delete_item (Item.id item) d)))) =
    dict_get k d.
Proof.
  intros Hget. rewrite (delete_item_present _ _ _ Hget).
  rewrite add_item_run. unfold store. cbn [fst snd].
  destruct (Z.eq_dec k (Item.id item)) as [->|Hne].
  - now rewrite dict_get_set_eq.
  - rewrite dict_get_set_ne by exact Hne. now apply dict_get_remove_ne.
Qed.

Lemma delete_item_then_add_item_restores_lookups_witness :
  dict_get (Item.id Hammer) items = Some Hammer /\
  store (add_item Hammer (store (delete_item 0 items))) =
    [(1, Pliers); (2, Nails); (0, Hammer)] /\
  dict_get 0 (store (add_item Hammer (store (delete_item 0 items)))) =
    dict_get 0 items.
Proof.
  split; [reflexivity|]. split; [reflexivity|].
  apply (delete_item_then_add_item_restores_lookups items Hammer 0).
  reflexivity.
Defined.
